(** * Password-reset mailer of the identity service

    A shallow embedding of [identity-service/app/email_service.py]:
    the provider-configuration resolver [_smtp_config] and the dispatcher
    [send_password_reset_email], followed by the properties the design
    document states about them.

    Python values are modelled as follows.
    - [str] is [string]; every character is a code point below 256.
    - A [dict] with string keys is a [gmap string PyVal]; an absent key is
      an absent binding, and the empty dict is [∅] (the only falsy dict).
    - A settings field that the code tests for truth is an [option string]:
      [None] is Python's [None], [Some s] is the string [s].
    - Exceptions are values of [PyExc]; a computation that may log, build
      a message, call the transport and raise lives in the monad [Eff].
    - The email library and the SMTP transport are outside capabilities:
      the dispatcher is parameterised by what each of them raises. *)

From Stdlib Require Import String Ascii ZArith List Bool.
From stdpp Require Import base option strings gmap fin_maps.

Local Open Scope string_scope.
Local Open Scope list_scope.
Local Open Scope Z_scope.

(** ** Python values *)

Inductive PyVal : Type :=
| VNone
| VBool (b : bool)
| VInt (n : Z)
| VStr (s : string).

#[global] Instance PyVal_eq_dec : EqDecision PyVal.
Proof. solve_decision. Defined.

(** Truth value of a Python object ([bool(v)]). *)
Definition truthy (v : PyVal) : bool :=
  match v with
  | VNone => false
  | VBool b => b
  | VInt n => negb (n =? 0)
  | VStr s => negb (String.eqb s EmptyString)
  end.

(** A [str]-or-[None] attribute as a Python object. *)
Definition pyval_of (o : option string) : PyVal :=
  match o with
  | Some s => VStr s
  | None => VNone
  end.

(** [a or b] where [a] is a [str]-or-[None] and [b] is a [str]. *)
Definition py_or (a : option string) (b : string) : string :=
  match a with
  | Some s => if String.eqb s EmptyString then b else s
  | None => b
  end.

(** ** The settings object

    The settings object is built by [get_settings] of [config.py]; it is
    taken here as a record of the attributes [email_service.py] reads,
    typed as the configuration surface describes them (strings, one
    integer, one boolean). *)

Record Settings : Type := {
  email_provider : string;
  gmail_user : option string;
  gmail_app_password : option string;
  sendgrid_user : option string;
  sendgrid_api_key : option string;
  resend_api_key : option string;
  smtp_host : option string;
  smtp_port : Z;
  smtp_user : option string;
  smtp_password : option string;
  smtp_secure : bool;
  email_from : option string;
  email_from_name : string;
  app_name : string
}.

(** [not x] for a [str]-or-[None] attribute. *)
Definition py_not (o : option string) : bool := negb (truthy (pyval_of o)).

(** ** [_smtp_config] *)

Definition _smtp_config (settings : Settings) : gmap string PyVal :=
  let provider := email_provider settings in
  if decide (provider = "gmail") then
    if py_not (gmail_user settings) || py_not (gmail_app_password settings)
    then ∅
    else {[ "host" := VStr "smtp.gmail.com";
            "port" := VInt 587;
            "user" := pyval_of (gmail_user settings);
            "password" := pyval_of (gmail_app_password settings) ]}
  else if decide (provider = "sendgrid") then
    if py_not (sendgrid_api_key settings)
    then ∅
    else {[ "host" := VStr "smtp.sendgrid.net";
            "port" := VInt 587;
            "user" := VStr (py_or (sendgrid_user settings) "apikey");
            "password" := pyval_of (sendgrid_api_key settings) ]}
  else if decide (provider = "resend") then
    if py_not (resend_api_key settings)
    then ∅
    else {[ "host" := VStr "smtp.resend.com";
            "port" := VInt 587;
            "user" := VStr "resend";
            "password" := pyval_of (resend_api_key settings) ]}
  else if decide (provider = "smtp") then
    if py_not (smtp_host settings) || py_not (smtp_user settings)
       || py_not (smtp_password settings)
    then ∅
    else {[ "host" := pyval_of (smtp_host settings);
            "port" := VInt (smtp_port settings);
            "user" := pyval_of (smtp_user settings);
            "password" := pyval_of (smtp_password settings);
            "secure" := VBool (smtp_secure settings) ]}
  else ∅.

(** ** Strings: [str.strip] and the f-string templates *)

(** [c.isspace()] for a code point below 256. *)
Definition isspace (c : ascii) : bool :=
  let n := N_of_ascii c in
  ((9 <=? n) && (n <=? 13) || (28 <=? n) && (n <=? 32)
   || (n =? 133) || (n =? 160))%N.

Fixpoint lstrip (s : string) : string :=
  match s with
  | EmptyString => EmptyString
  | String c s' => if isspace c then lstrip s' else s
  end.

Fixpoint rstrip (s : string) : string :=
  match s with
  | EmptyString => EmptyString
  | String c s' =>
      match rstrip s' with
      | EmptyString => if isspace c then EmptyString else String c EmptyString
      | r => String c r
      end
  end.

(** [s.strip()]: whitespace removed at both ends. *)
Definition strip (s : string) : string := rstrip (lstrip s).

(** Some character of [s] is not whitespace. *)
Fixpoint nonblank (s : string) : bool :=
  match s with
  | EmptyString => false
  | String c s' => negb (isspace c) || nonblank s'
  end.

(** The line feed that ends each line of a triple-quoted literal, and the
    double quote that occurs inside the HTML template. *)
Definition nl : string := String "010" EmptyString.
Definition dquote : string := String "034" EmptyString.

(** The greeting name of both templates: [recipient_name or 'User']. *)
Definition name_or_User (recipient_name : string) : string :=
  py_or (Some recipient_name) "User".

Definition html_body (app_name recipient_name new_password : string) : string :=
  strip (nl
    +:+ "<!DOCTYPE html>" +:+ nl
    +:+ "<html>" +:+ nl
    +:+ "<head>" +:+ nl
    +:+ "  <meta charset=" +:+ dquote +:+ "utf-8" +:+ dquote +:+ ">" +:+ nl
    +:+ "</head>" +:+ nl
    +:+ "<body>" +:+ nl
    +:+ "  <p>Hello " +:+ name_or_User recipient_name +:+ ",</p>" +:+ nl
    +:+ "  <p>You have requested to reset your password. Your new temporary password is:</p>" +:+ nl
    +:+ "  <p><strong>" +:+ new_password +:+ "</strong></p>" +:+ nl
    +:+ "  <p>For security reasons, you will be required to change this password immediately after logging in.</p>" +:+ nl
    +:+ "  <p>This is an automated email from " +:+ app_name +:+ ".</p>" +:+ nl
    +:+ "</body>" +:+ nl
    +:+ "</html>" +:+ nl).

Definition text_body (app_name recipient_name new_password : string) : string :=
  strip (nl
    +:+ "Password Reset - " +:+ app_name +:+ nl
    +:+ nl
    +:+ "Hello " +:+ name_or_User recipient_name +:+ "," +:+ nl
    +:+ nl
    +:+ "You have requested to reset your password for your account. Your new temporary password is:" +:+ nl
    +:+ nl
    +:+ new_password +:+ nl
    +:+ nl
    +:+ "IMPORTANT: For security reasons, you will be required to change this password immediately after logging in." +:+ nl
    +:+ nl
    +:+ "This is an automated email. Please do not reply to this message." +:+ nl).

(** ** The outbound message

    [email.message.EmailMessage] belongs to the standard library: what a
    call on it stores, rewrites or rejects is decided there, not in
    [email_service.py]. A message is therefore represented by the calls the
    dispatcher has made on it so far, oldest first, with their arguments
    as passed; whether the library raises on a call is a parameter of the
    dispatcher (see [email_lib] below). *)

Inductive MsgOp : Type :=
| SetItem (name value : string)
| SetContent (body : string)
| AddAlternative (body subtype : string).

Definition EmailMessage : Type := list MsgOp.

(** The values assigned to the header [name], in assignment order. *)
Definition header_assigned (name : string) (m : EmailMessage) : list string :=
  omap (λ op, match op with
              | SetItem n v => if String.eqb n name then Some v else None
              | _ => None
              end) m.

(** The bodies passed to [set_content], and the bodies passed to
    [add_alternative] with their subtype. *)
Definition content_set (m : EmailMessage) : list string :=
  omap (λ op, match op with SetContent body => Some body | _ => None end) m.

Definition alternatives_added (m : EmailMessage) : list (string * string) :=
  omap (λ op, match op with
              | AddAlternative body subtype => Some (body, subtype)
              | _ => None
              end) m.

(** ** Effects: log records, message construction, transport calls *)

(** A raised Python exception with its [str()]. [PyException] is an
    instance of [Exception] (every SMTP, socket and lookup error);
    [PyBaseException] is one outside that class (interpreter exit,
    keyboard interrupt, task cancellation). *)
Inductive PyExc : Type :=
| PyException (msg : string)
| PyBaseException (msg : string).

Definition exc_str (e : PyExc) : string :=
  match e with
  | PyException msg => msg
  | PyBaseException msg => msg
  end.

(** The keyword arguments of [aiosmtplib.send]. *)
Record SmtpCall : Type := {
  message : EmailMessage;
  hostname : PyVal;
  port : PyVal;
  username : PyVal;
  password : PyVal;
  start_tls : bool;
  use_tls : PyVal
}.

Inductive Event : Type :=
| EvLogError (msg : string)
| EvNewMessage
| EvSmtpSend (call : SmtpCall).

(** Events that touch the mail machinery, as opposed to log records. *)
Definition mail_activity (ev : Event) : bool :=
  match ev with
  | EvLogError _ => false
  | EvNewMessage => true
  | EvSmtpSend _ => true
  end.

Inductive Outcome (A : Type) : Type :=
| Returned (a : A)
| Raised (e : PyExc).
Arguments Returned {A} a.
Arguments Raised {A} e.

(** A computation appends its events to the trace it is given and either
    returns or raises. *)
Definition Eff (A : Type) : Type := list Event → Outcome A * list Event.

#[global] Instance Eff_ret : MRet Eff := λ A a tr, (Returned a, tr).

#[global] Instance Eff_bind : MBind Eff := λ A B k m tr,
  match m tr with
  | (Returned a, tr') => k a tr'
  | (Raised e, tr') => (Raised e, tr')
  end.

Definition emit (ev : Event) : Eff unit := λ tr, (Returned tt, tr ++ [ev]).

Definition raise {A} (e : PyExc) : Eff A := λ tr, (Raised e, tr).
Definition ret {A} (a : A) : Eff A := mret a.

(** [try: body / except Exception as exc: handler exc] *)
Definition try_except_Exception {A} (body : Eff A) (handler : PyExc → Eff A) : Eff A :=
  λ tr, match body tr with
        | (Raised (PyException msg), tr') => handler (PyException msg) tr'
        | r => r
        end.

(** [logger.error(fmt, ...)] with the message already formatted. *)
Definition logger_error (msg : string) : Eff unit := emit (EvLogError msg).

(** [EmailMessage()] *)
Definition EmailMessage_new : Eff EmailMessage :=
  emit EvNewMessage ;; ret ([] : EmailMessage).

(** [d[key]]: raises [KeyError(key)] when the key is absent. *)
Definition getitem (d : gmap string PyVal) (key : string) : Eff PyVal :=
  match d !! key with
  | Some v => ret v
  | None => raise (PyException ("'" +:+ key +:+ "'"))
  end.

(** [d.get(key, dflt)] *)
Definition dict_get (d : gmap string PyVal) (key : string) (dflt : PyVal) : PyVal :=
  default dflt (d !! key).

(** The two results the dispatcher returns on failure and on success. *)
Definition failure_result (error : string) : gmap string PyVal :=
  {[ "success" := VBool false; "error" := VStr error ]}.

Definition success_result : gmap string PyVal :=
  {[ "success" := VBool true ]}.

Definition not_configured_error : string :=
  "Email service not configured. Please contact administrator.".

Section Dispatcher.

(** The process-wide settings object and the two outside capabilities.
    [email_lib message op] is what the email library does when [op] is
    called on a message with the history [message]: [None] when the call
    returns, [Some e] when it raises [e]. [aiosmtplib_send call] is [None]
    when the SMTP exchange completes and [Some e] when it raises [e]. *)
Variable settings : Settings.
Variable email_lib : EmailMessage → MsgOp → option PyExc.
Variable aiosmtplib_send : SmtpCall → option PyExc.

(** A call on the message: it raises what the library raises, and is
    otherwise added to the history of the message. *)
Definition msg_call (op : MsgOp) (message : EmailMessage) : Eff EmailMessage :=
  match email_lib message op with
  | Some e => raise e
  | None => ret (message ++ [op])
  end.

(** [message[name] = value] *)
Definition setitem (name value : string) (message : EmailMessage)
    : Eff EmailMessage :=
  msg_call (SetItem name value) message.

(** [message.set_content(body)] *)
Definition set_content (body : string) (message : EmailMessage)
    : Eff EmailMessage :=
  msg_call (SetContent body) message.

(** [message.add_alternative(body, subtype=subtype)] *)
Definition add_alternative (body subtype : string) (message : EmailMessage)
    : Eff EmailMessage :=
  msg_call (AddAlternative body subtype) message.

(** [await aiosmtplib.send(...)] *)
Definition smtp_send (call : SmtpCall) : Eff unit :=
  emit (EvSmtpSend call) ;;
  match aiosmtplib_send call with
  | None => ret tt
  | Some e => raise e
  end.

(** [recipient_name] is [None] when the caller omits the argument, which
    then takes its default ["User"]. The message is built before the
    [try], so what the library raises there is not handled. *)
Definition send_password_reset_email
    (to_email new_password : string) (recipient_name : option string)
    : Eff (gmap string PyVal) :=
  let recipient_name := default "User" recipient_name in
  let config := _smtp_config settings in
  if decide (config = ∅) then
    logger_error "Email transporter not configured. Cannot send email." ;;
    ret (failure_result not_configured_error)
  else
    let from_email :=
      py_or (email_from settings)
            (py_or (gmail_user settings) "noreply@sportsevent.com") in
    let from_name := email_from_name settings in
    let app_name := app_name settings in
    let html_body := html_body app_name recipient_name new_password in
    let text_body := text_body app_name recipient_name new_password in
    message ← EmailMessage_new;
    message ← setitem "Subject" "Password Reset - Sports Event Management" message;
    message ← setitem "From" (from_name +:+ " <" +:+ from_email +:+ ">") message;
    message ← setitem "To" to_email message;
    message ← set_content text_body message;
    message ← add_alternative html_body "html" message;
    try_except_Exception
      (host ← getitem config "host";
       port ← getitem config "port";
       user ← getitem config "user";
       password ← getitem config "password";
       smtp_send {| message := message;
                    hostname := host;
                    port := port;
                    username := user;
                    password := password;
                    start_tls := negb (truthy (dict_get config "secure" (VBool false)));
                    use_tls := dict_get config "secure" (VBool false) |} ;;
       ret success_result)
      (λ exc,
         logger_error ("Error sending password reset email: " +:+ exc_str exc) ;;
         ret (failure_result (exc_str exc))).

End Dispatcher.

(** ** Vocabulary of the design document

    The resolver's contract is stated per provider variant, each with a
    list of required settings; a required setting counts when it is
    present and non-empty. *)

Inductive Variant : Type := Gmail | Sendgrid | Resend | Smtp.

Definition variant_of (provider : string) : option Variant :=
  if decide (provider = "gmail") then Some Gmail
  else if decide (provider = "sendgrid") then Some Sendgrid
  else if decide (provider = "resend") then Some Resend
  else if decide (provider = "smtp") then Some Smtp
  else None.

Definition required_fields (v : Variant) : list (Settings → option string) :=
  match v with
  | Gmail => [gmail_user; gmail_app_password]
  | Sendgrid => [sendgrid_api_key]
  | Resend => [resend_api_key]
  | Smtp => [smtp_host; smtp_user; smtp_password]
  end.

(** A setting is populated when it is present and non-empty. *)
Definition populated (o : option string) : Prop :=
  ∃ v, o = Some v ∧ v ≠ EmptyString.

(** The key [k] of a dict holds a non-empty string. *)
Definition holds_text (c : gmap string PyVal) (k : string) : Prop :=
  ∃ v, c !! k = Some (VStr v) ∧ v ≠ EmptyString.

(** Host, port, user and password are all there. *)
Definition credentials_populated (c : gmap string PyVal) : Prop :=
  holds_text c "host" ∧ (∃ p, c !! "port" = Some (VInt p))
  ∧ holds_text c "user" ∧ holds_text c "password".

(** All five fields of a provider config are there. *)
Definition fully_populated (c : gmap string PyVal) : Prop :=
  credentials_populated c ∧ ∃ b, c !! "secure" = Some (VBool b).

(** The result invariant of the design document: success without an
    error field, or failure with a non-empty error string. *)
Definition result_invariant (r : gmap string PyVal) : Prop :=
  (r !! "success" = Some (VBool true) ∧ r !! "error" = None)
  ∨ (r !! "success" = Some (VBool false)
     ∧ ∃ e, r !! "error" = Some (VStr e) ∧ e ≠ EmptyString).

(** [needle] occurs in [hay] as a contiguous, unchanged run of characters. *)
Definition contains (needle hay : string) : Prop :=
  ∃ before after, hay = before +:+ needle +:+ after.

(** The calls the dispatcher makes on the message, in order, and the
    keyword arguments of the transport call that follows them. *)
Definition outbound_message (settings : Settings)
    (to_email new_password : string) (recipient_name : option string)
    : EmailMessage :=
  [ SetItem "Subject" "Password Reset - Sports Event Management";
    SetItem "From" (email_from_name settings +:+ " <"
                    +:+ py_or (email_from settings)
                          (py_or (gmail_user settings) "noreply@sportsevent.com")
                    +:+ ">");
    SetItem "To" to_email;
    SetContent (text_body (app_name settings) (default "User" recipient_name)
                  new_password);
    AddAlternative (html_body (app_name settings) (default "User" recipient_name)
                      new_password) "html" ].

(** The first exception the library raises while the calls [ops] are made
    one after the other on a message with the history [message]. *)
Fixpoint first_rejection (email_lib : EmailMessage → MsgOp → option PyExc)
    (message : EmailMessage) (ops : list MsgOp) : option PyExc :=
  match ops with
  | [] => None
  | op :: rest =>
      match email_lib message op with
      | Some e => Some e
      | None => first_rejection email_lib (message ++ [op]) rest
      end
  end.

(** A run that started from the trace [tr] called the transport with [c]. *)
Definition made_call {A} (run : Outcome A * list Event) (tr : list Event)
    (c : SmtpCall) : Prop :=
  ∃ added, run.2 = tr ++ added ∧ In (EvSmtpSend c) added.

Definition dispatched_call (settings : Settings)
    (to_email new_password : string) (recipient_name : option string)
    : SmtpCall :=
  let config := _smtp_config settings in
  let secure := dict_get config "secure" (VBool false) in
  {| message := outbound_message settings to_email new_password recipient_name;
     hostname := dict_get config "host" VNone;
     port := dict_get config "port" VNone;
     username := dict_get config "user" VNone;
     password := dict_get config "password" VNone;
     start_tls := negb (truthy secure);
     use_tls := secure |}.

(** ** Sample settings and transports *)

Definition blank_settings : Settings := {|
  email_provider := EmptyString;
  gmail_user := None; gmail_app_password := None;
  sendgrid_user := None; sendgrid_api_key := None; resend_api_key := None;
  smtp_host := None; smtp_port := 587; smtp_user := None;
  smtp_password := None; smtp_secure := false;
  email_from := None; email_from_name := "Sports Event Management";
  app_name := "Sports Event Management" |}.

Definition with_provider (p : string) (s : Settings) : Settings :=
  {| email_provider := p;
     gmail_user := gmail_user s; gmail_app_password := gmail_app_password s;
     sendgrid_user := sendgrid_user s; sendgrid_api_key := sendgrid_api_key s;
     resend_api_key := resend_api_key s;
     smtp_host := smtp_host s; smtp_port := smtp_port s;
     smtp_user := smtp_user s; smtp_password := smtp_password s;
     smtp_secure := smtp_secure s;
     email_from := email_from s; email_from_name := email_from_name s;
     app_name := app_name s |}.

Definition gmail_settings : Settings := {|
  email_provider := "gmail";
  gmail_user := Some "ops@example.org";
  gmail_app_password := Some "app-pass";
  sendgrid_user := None; sendgrid_api_key := None; resend_api_key := None;
  smtp_host := None; smtp_port := 587; smtp_user := None;
  smtp_password := None; smtp_secure := false;
  email_from := None; email_from_name := "Sports Desk";
  app_name := "Sports Event Management" |}.

Definition sendgrid_settings : Settings := {|
  email_provider := "sendgrid";
  gmail_user := None; gmail_app_password := None;
  sendgrid_user := None; sendgrid_api_key := Some "SG.key";
  resend_api_key := None;
  smtp_host := None; smtp_port := 587; smtp_user := None;
  smtp_password := None; smtp_secure := false;
  email_from := Some "desk@example.org"; email_from_name := "Sports Desk";
  app_name := "Sports Event Management" |}.

Definition resend_settings : Settings := {|
  email_provider := "resend";
  gmail_user := Some "ops@example.org"; gmail_app_password := None;
  sendgrid_user := None; sendgrid_api_key := None;
  resend_api_key := Some "re_key";
  smtp_host := None; smtp_port := 587; smtp_user := None;
  smtp_password := None; smtp_secure := false;
  email_from := Some EmptyString; email_from_name := "Sports Desk";
  app_name := "Sports Event Management" |}.

Definition smtps_settings : Settings := {|
  email_provider := "smtp";
  gmail_user := None; gmail_app_password := None;
  sendgrid_user := None; sendgrid_api_key := None; resend_api_key := None;
  smtp_host := Some "mail.example.org"; smtp_port := 465;
  smtp_user := Some "mailer"; smtp_password := Some "hunter2";
  smtp_secure := true;
  email_from := None; email_from_name := "Sports Desk";
  app_name := "Sports Event Management" |}.

(** The gmail sample with every other provider's settings filled in too. *)
Definition crowded_gmail_settings : Settings := {|
  email_provider := "gmail";
  gmail_user := Some "ops@example.org";
  gmail_app_password := Some "app-pass";
  sendgrid_user := Some "sg-user"; sendgrid_api_key := Some "SG.key";
  resend_api_key := Some "re_key";
  smtp_host := Some "mail.example.org"; smtp_port := 465;
  smtp_user := Some "mailer"; smtp_password := Some "hunter2";
  smtp_secure := true;
  email_from := Some "desk@example.org"; email_from_name := "Front Desk";
  app_name := "Sports Portal" |}.

(** [s.splitlines()] for code points below 256: a line ends at a line
    feed, a carriage return (with the line feed that follows it, if any),
    a vertical tab, a form feed, one of the separators 28 to 30, or the
    next-line character 133. *)
Definition is_line_boundary (c : ascii) : bool :=
  let n := N_of_ascii c in
  ((10 <=? n) && (n <=? 13) || (28 <=? n) && (n <=? 30) || (n =? 133))%N.

Fixpoint splitlines (s : string) : list string :=
  match s with
  | EmptyString => []
  | String c s' =>
      if is_line_boundary c then
        EmptyString ::
          match s' with
          | String c' s'' =>
              if (N_of_ascii c =? 13)%N && (N_of_ascii c' =? 10)%N
              then splitlines s'' else splitlines s'
          | EmptyString => []
          end
      else
        match splitlines s' with
        | [] => [String c EmptyString]
        | line :: lines => String c line :: lines
        end
  end.

(** A sample behaviour of the email library: a header value that spans
    more than one line is refused with the policy's [ValueError]; every
    other call returns. *)
Definition line_break_policy : EmailMessage → MsgOp → option PyExc :=
  λ _ op,
    match op with
    | SetItem _ value =>
        if (1 <? length (splitlines value))%nat
        then Some (PyException
               "Header values may not contain linefeed or carriage return characters")
        else None
    | _ => None
    end.

(** A transport that delivers, and one whose every call raises [e]. *)
Definition delivering : SmtpCall → option PyExc := λ _, None.
Definition failing (e : PyExc) : SmtpCall → option PyExc := λ _, Some e.

(** The resolver's contract as a relation between the settings and the
    dict it returns: one rule per way of being unconfigured, one per
    variant. *)
Inductive resolved (s : Settings) : gmap string PyVal → Prop :=
| res_unrecognized :
    variant_of (email_provider s) = None →
    resolved s ∅
| res_missing v f :
    variant_of (email_provider s) = Some v →
    In f (required_fields v) →
    ¬ populated (f s) →
    resolved s ∅
| res_gmail u p :
    email_provider s = "gmail" →
    gmail_user s = Some u → u ≠ EmptyString →
    gmail_app_password s = Some p → p ≠ EmptyString →
    resolved s {[ "host" := VStr "smtp.gmail.com"; "port" := VInt 587;
                  "user" := VStr u; "password" := VStr p ]}
| res_sendgrid k :
    email_provider s = "sendgrid" →
    sendgrid_api_key s = Some k → k ≠ EmptyString →
    resolved s {[ "host" := VStr "smtp.sendgrid.net"; "port" := VInt 587;
                  "user" := VStr (py_or (sendgrid_user s) "apikey");
                  "password" := VStr k ]}
| res_resend k :
    email_provider s = "resend" →
    resend_api_key s = Some k → k ≠ EmptyString →
    resolved s {[ "host" := VStr "smtp.resend.com"; "port" := VInt 587;
                  "user" := VStr "resend"; "password" := VStr k ]}
| res_smtp h u p :
    email_provider s = "smtp" →
    smtp_host s = Some h → h ≠ EmptyString →
    smtp_user s = Some u → u ≠ EmptyString →
    smtp_password s = Some p → p ≠ EmptyString →
    resolved s {[ "host" := VStr h; "port" := VInt (smtp_port s);
                  "user" := VStr u; "password" := VStr p;
                  "secure" := VBool (smtp_secure s) ]}.

(** ** Vocabulary for the further properties *)

(** The settings a branch of the resolver reads, as Python objects. *)
Definition resolver_inputs (v : Variant) (s : Settings) : list PyVal :=
  match v with
  | Gmail => [pyval_of (gmail_user s); pyval_of (gmail_app_password s)]
  | Sendgrid => [pyval_of (sendgrid_api_key s); pyval_of (sendgrid_user s)]
  | Resend => [pyval_of (resend_api_key s)]
  | Smtp => [pyval_of (smtp_host s); VInt (smtp_port s);
             pyval_of (smtp_user s); pyval_of (smtp_password s);
             VBool (smtp_secure s)]
  end.

Definition is_send (ev : Event) : bool :=
  match ev with EvSmtpSend _ => true | _ => false end.

Definition is_new_message (ev : Event) : bool :=
  match ev with EvNewMessage => true | _ => false end.

Definition is_log (ev : Event) : bool :=
  match ev with EvLogError _ => true | _ => false end.

(** How many events of a trace satisfy [p]. *)
Definition count_events (p : Event → bool) (tr : list Event) : nat :=
  length (List.filter p tr).

(** [prefix] opens [s]; [suffix] closes it. *)
Definition starts_with (prefix s : string) : Prop := ∃ tl, s = prefix +:+ tl.
Definition ends_with (suffix s : string) : Prop := ∃ hd, s = hd +:+ suffix.

(** * Properties of the resolver *)

Section TruthTests.

Lemma py_not_cases (o : option string) :
  (py_not o = true ∧ ¬ populated o)
  ∨ (py_not o = false ∧ ∃ v, o = Some v ∧ v ≠ EmptyString).
Proof.
  destruct o as [v|]; unfold py_not; simpl.
  - destruct (String.eqb_spec v EmptyString) as [->|Hne]; simpl.
    + left. split; [reflexivity|]. intros (w & [= <-] & Hw). by apply Hw.
    + right. eauto.
  - left. split; [reflexivity|]. intros (w & [=] & _).
Qed.

Lemma py_not_true (o : option string) : ¬ populated o → py_not o = true.
Proof.
  intros Hn. destruct (py_not_cases o) as [[H _]|[_ (v & -> & Hv)]]; [done|].
  exfalso. apply Hn. by exists v.
Qed.

Lemma py_or_populated (o : option string) (b v : string) :
  o = Some v → v ≠ EmptyString → py_or o b = v.
Proof.
  intros -> Hv. simpl. by destruct (String.eqb_spec v EmptyString).
Qed.

Lemma py_or_fallback (o : option string) (b : string) :
  ¬ populated o → py_or o b = b.
Proof.
  intros Hn. destruct o as [v|]; simpl; [|done].
  destruct (String.eqb_spec v EmptyString); [done|].
  exfalso. apply Hn. by exists v.
Qed.

Lemma py_or_nonempty (o : option string) (b : string) :
  b ≠ EmptyString → py_or o b ≠ EmptyString.
Proof.
  intros Hb. destruct o as [v|]; simpl; [|done].
  by destruct (String.eqb_spec v EmptyString).
Qed.

End TruthTests.

Ltac split_truth o :=
  let v := fresh "v" in
  let Heq := fresh "Heq" in
  let Hne := fresh "Hne" in
  let Hnot := fresh "Hnot" in
  let Hmiss := fresh "Hmiss" in
  destruct (py_not_cases o) as [[Hnot Hmiss]|[Hnot (v & Heq & Hne)]];
  rewrite Hnot; simpl.

Lemma _smtp_config_resolved (s : Settings) : resolved s (_smtp_config s).
Proof.
  unfold _smtp_config. cbv zeta.
  destruct (decide (email_provider s = "gmail")) as [Hg|Hg].
  { assert (Hv : variant_of (email_provider s) = Some Gmail)
      by (unfold variant_of; repeat case_decide; done).
    split_truth (gmail_user s).
    - eapply (res_missing s Gmail gmail_user); simpl; eauto.
    - split_truth (gmail_app_password s).
      + eapply (res_missing s Gmail gmail_app_password); simpl; eauto.
      + rewrite Heq, Heq0. simpl. by apply res_gmail. }
  destruct (decide (email_provider s = "sendgrid")) as [Hs|Hs].
  { assert (Hv : variant_of (email_provider s) = Some Sendgrid)
      by (unfold variant_of; repeat case_decide; done).
    split_truth (sendgrid_api_key s).
    - eapply (res_missing s Sendgrid sendgrid_api_key); simpl; eauto.
    - rewrite Heq. simpl. by apply res_sendgrid. }
  destruct (decide (email_provider s = "resend")) as [Hr|Hr].
  { assert (Hv : variant_of (email_provider s) = Some Resend)
      by (unfold variant_of; repeat case_decide; done).
    split_truth (resend_api_key s).
    - eapply (res_missing s Resend resend_api_key); simpl; eauto.
    - rewrite Heq. simpl. by apply res_resend. }
  destruct (decide (email_provider s = "smtp")) as [Hm|Hm].
  { assert (Hv : variant_of (email_provider s) = Some Smtp)
      by (unfold variant_of; repeat case_decide; done).
    split_truth (smtp_host s).
    - eapply (res_missing s Smtp smtp_host); simpl; eauto.
    - split_truth (smtp_user s).
      + eapply (res_missing s Smtp smtp_user); simpl; eauto.
      + split_truth (smtp_password s).
        * eapply (res_missing s Smtp smtp_password); simpl; eauto.
        * rewrite Heq, Heq0, Heq1. simpl. by apply res_smtp. }
  apply res_unrecognized. unfold variant_of. repeat case_decide; done.
Qed.

Lemma py_not_false (o : option string) : populated o → py_not o = false.
Proof.
  intros (v & -> & Hv). unfold py_not. simpl.
  by destruct (String.eqb_spec v EmptyString).
Qed.

Lemma populated_pyval (o : option string) :
  populated o → ∃ v, o = Some v ∧ pyval_of o = VStr v ∧ v ≠ EmptyString.
Proof. intros (v & -> & Hv). by exists v. Qed.

(** C6. The resolver returns the empty dict (it has no raising path: it
    is a total function into dicts) whenever the provider value is not one
    of the four variants, or some required setting of the selected variant
    is absent or empty. *)
Theorem resolver_not_configured (s : Settings) :
  variant_of (email_provider s) = None
  ∨ (∃ v f, variant_of (email_provider s) = Some v
            ∧ In f (required_fields v) ∧ ¬ populated (f s)) →
  _smtp_config s = ∅.
Proof.
  intros [Hnone | (v & f & Hv & Hin & Hmiss)];
    unfold _smtp_config; cbv zeta.
  - unfold variant_of in Hnone. repeat case_decide; done.
  - apply py_not_true in Hmiss. unfold variant_of in Hv.
    repeat case_decide; simplify_eq; simpl in Hin;
      repeat (destruct Hin as [<-|Hin]; [rewrite Hmiss|]);
      rewrite ?orb_true_r; simpl; done.
Qed.

Lemma resolver_not_configured_witness :
  _smtp_config (with_provider "sendgrid" gmail_settings) = ∅.
Proof.
  apply resolver_not_configured. right.
  exists Sendgrid, sendgrid_api_key. split; [reflexivity|].
  split; [simpl; auto|]. intros (v & Hv & _). discriminate Hv.
Defined.

(** C5. When every required setting of a variant is populated, the
    resolved host and port are those of the variant: the fixed relay and
    port 587 for gmail, sendgrid and resend, the configured host and port
    for generic smtp. *)
Theorem resolver_fixed_endpoint (s : Settings) (v : Variant) :
  variant_of (email_provider s) = Some v →
  Forall (λ f, populated (f s)) (required_fields v) →
  match v with
  | Gmail =>
      _smtp_config s !! "host" = Some (VStr "smtp.gmail.com")
      ∧ _smtp_config s !! "port" = Some (VInt 587)
  | Sendgrid =>
      _smtp_config s !! "host" = Some (VStr "smtp.sendgrid.net")
      ∧ _smtp_config s !! "port" = Some (VInt 587)
  | Resend =>
      _smtp_config s !! "host" = Some (VStr "smtp.resend.com")
      ∧ _smtp_config s !! "port" = Some (VInt 587)
  | Smtp =>
      ∃ h, smtp_host s = Some h
           ∧ _smtp_config s !! "host" = Some (VStr h)
           ∧ _smtp_config s !! "port" = Some (VInt (smtp_port s))
  end.
Proof.
  intros Hv Hreq. unfold _smtp_config; cbv zeta. unfold variant_of in Hv.
  repeat case_decide; simplify_eq; simpl in Hreq;
    repeat match goal with
           | H : Forall _ (_ :: _) |- _ => apply Forall_cons in H as [? H]
           | H : populated ?o |- _ =>
               rewrite (py_not_false o H);
               apply populated_pyval in H as (? & ? & ? & ?)
           end; simpl.
  - done.
  - done.
  - done.
  - match goal with
    | H : smtp_host s = Some ?h |- _ => exists h; rewrite H
    end.
    done.
Qed.

Lemma resolver_fixed_endpoint_witness :
  _smtp_config gmail_settings !! "host" = Some (VStr "smtp.gmail.com")
  ∧ _smtp_config gmail_settings !! "port" = Some (VInt 587).
Proof.
  apply (resolver_fixed_endpoint gmail_settings Gmail); [reflexivity|].
  repeat constructor; eexists; (split; [reflexivity|discriminate]).
Defined.

(** C4, as stated, fails: the resolved gmail config carries four keys and
    no [secure] key, so it is neither the empty dict nor a dict with all
    five fields. *)
Lemma resolver_gmail_lacks_secure :
  ¬ (_smtp_config gmail_settings = ∅
     ∨ fully_populated (_smtp_config gmail_settings)).
Proof.
  intros [Hempty | [_ [b Hb]]].
  - apply (f_equal (λ c : gmap string PyVal, c !! "host")) in Hempty.
    vm_compute in Hempty. discriminate Hempty.
  - vm_compute in Hb. discriminate Hb.
Qed.

(** A resolved config either is empty or has the four credentials. *)
Lemma resolver_credentials (s : Settings) :
  _smtp_config s = ∅ ∨ credentials_populated (_smtp_config s).
Proof.
  destruct (_smtp_config_resolved s); [by left | by left | right ..].
  all: unfold credentials_populated, holds_text; split_and!;
    first [ eexists; split;
              [reflexivity | first [done | by apply py_or_nonempty]]
          | eexists; reflexivity ].
Qed.

(** Only the generic smtp variant writes a [secure] entry, and it writes
    the configured flag. *)
Lemma resolver_secure_entry (s : Settings) :
  _smtp_config s = ∅
  ∨ (email_provider s = "smtp"
     ∧ _smtp_config s !! "secure" = Some (VBool (smtp_secure s)))
  ∨ (email_provider s ≠ "smtp" ∧ _smtp_config s !! "secure" = None).
Proof.
  destruct (_smtp_config_resolved s) as
    [ | | u p Hp | k Hp | k Hp | h u p Hp ]; [by left | by left | right ..].
  1-3: right; rewrite Hp; done.
  left. done.
Qed.

(** C4, amended. The resolver returns either the empty dict or a dict in
    which host, port, user and password are all present, the three strings
    non-empty; the [secure] key is present exactly for the generic smtp
    variant, where it holds the configured flag, and absent for the other
    variants. *)
Theorem resolver_all_or_nothing (s : Settings) :
  _smtp_config s = ∅
  ∨ (credentials_populated (_smtp_config s)
     ∧ ((email_provider s = "smtp"
         ∧ _smtp_config s !! "secure" = Some (VBool (smtp_secure s)))
        ∨ (email_provider s ≠ "smtp"
           ∧ _smtp_config s !! "secure" = None))).
Proof.
  destruct (resolver_credentials s) as [Hempty | Hcred]; [by left|].
  destruct (resolver_secure_entry s) as [Hempty | Hsecure]; [by left|].
  right. by split.
Qed.

(** A non-empty resolved config answers every subscript the dispatcher
    makes. *)
Lemma resolver_nonempty_keys (s : Settings) :
  _smtp_config s ≠ ∅ →
  ∃ host port user password,
    _smtp_config s !! "host" = Some host
    ∧ _smtp_config s !! "port" = Some port
    ∧ _smtp_config s !! "user" = Some user
    ∧ _smtp_config s !! "password" = Some password.
Proof.
  intros Hne. destruct (resolver_credentials s) as [He | Hc]; [done|].
  destruct Hc as ((h & Hh & _) & (p & Hp) & (u & Hu & _) & (w & Hw & _)).
  eauto 10.
Qed.

(** The [secure] entry of a resolved config, read with its default, is a
    boolean. *)
Lemma resolver_secure_bool (s : Settings) :
  ∃ b, dict_get (_smtp_config s) "secure" (VBool false) = VBool b.
Proof.
  unfold dict_get.
  destruct (resolver_secure_entry s) as [-> | [[_ ->] | [_ ->]]];
    simpl; eauto.
Qed.

(** * Properties of the dispatcher *)

Ltac run_eff :=
  unfold try_except_Exception, smtp_send, EmailMessage_new, logger_error,
    setitem, set_content, add_alternative, msg_call,
    emit, ret, raise, mbind, mret, Eff_bind, Eff_ret;
  simpl.

Section DispatcherRuns.

Variable settings : Settings.
Variable email_lib : EmailMessage → MsgOp → option PyExc.
Variable transport : SmtpCall → option PyExc.
Variables to_email new_password : string.
Variable recipient_name : option string.

Abbreviation run := (send_password_reset_email settings email_lib transport
                       to_email new_password recipient_name).
Abbreviation call := (dispatched_call settings to_email new_password
                        recipient_name).
Abbreviation ops := (outbound_message settings to_email new_password
                       recipient_name).

(** The unconfigured path: one log record, then the fixed failure result. *)
Lemma send_unconfigured (tr : list Event) :
  _smtp_config settings = ∅ →
  run tr =
    (Returned (failure_result not_configured_error),
     tr ++ [EvLogError "Email transporter not configured. Cannot send email."]).
Proof.
  intros Hcfg. unfold send_password_reset_email. cbv zeta.
  rewrite decide_True by done. reflexivity.
Qed.

(** The configured path: the message is created; if the library raises
    while it is filled, that exception leaves the dispatcher at once;
    otherwise the transport is called once with [call], and the outcome of
    the transport decides the rest. *)
Lemma send_configured (tr : list Event) :
  _smtp_config settings ≠ ∅ →
  run tr =
    match first_rejection email_lib [] ops with
    | Some e => (Raised e, tr ++ [EvNewMessage])
    | None =>
        match transport call with
        | None =>
            (Returned success_result, tr ++ [EvNewMessage; EvSmtpSend call])
        | Some (PyException msg) =>
            (Returned (failure_result msg),
             tr ++ [EvNewMessage; EvSmtpSend call;
                    EvLogError ("Error sending password reset email: " +:+ msg)])
        | Some (PyBaseException msg) =>
            (Raised (PyBaseException msg),
             tr ++ [EvNewMessage; EvSmtpSend call])
        end
    end.
Proof.
  intros Hcfg.
  destruct (resolver_nonempty_keys settings Hcfg)
    as (host & port & user & password & Hh & Hp & Hu & Hw).
  unfold send_password_reset_email. cbv zeta.
  rewrite decide_False by done.
  unfold getitem. rewrite Hh, Hp, Hu, Hw.
  unfold outbound_message. run_eff.
  repeat match goal with
         | |- context [email_lib ?m ?op] =>
             destruct (email_lib m op); simpl; [reflexivity|]
         end.
  replace {| message := _; hostname := host; port := port; username := user;
             password := password; start_tls := _; use_tls := _ |}
    with call
    by (unfold dispatched_call, dict_get; cbv zeta;
        rewrite Hh, Hp, Hu, Hw; reflexivity).
  destruct (transport call) as [[msg|msg]|];
    simpl; rewrite <- !app_assoc; reflexivity.
Qed.

(** A transport call is made only on the configured path, only after the
    library has accepted every call on the message, and then with
    [call]. *)
Lemma made_call_inv (tr : list Event) (c : SmtpCall) :
  made_call (run tr) tr c →
  _smtp_config settings ≠ ∅
  ∧ first_rejection email_lib [] ops = None
  ∧ c = call.
Proof.
  intros (added & Htr & Hin).
  destruct (decide (_smtp_config settings = ∅)) as [Hcfg|Hcfg].
  - rewrite send_unconfigured in Htr by done. simpl in Htr.
    apply app_inv_head in Htr. subst added.
    destruct Hin as [[=]|[]].
  - rewrite send_configured in Htr by done.
    destruct (first_rejection email_lib [] ops) as [e|].
    + simpl in Htr. apply app_inv_head in Htr. subst added.
      destruct Hin as [[=]|[]].
    + split_and!; [done..|].
      destruct (transport call) as [[msg|msg]|]; simpl in Htr;
        apply app_inv_head in Htr; subst added;
        repeat (destruct Hin as [Hin|Hin]; [by simplify_eq|]);
        destruct Hin.
Qed.

(** Conversely, on the configured path the transport is called as soon as
    the library accepts every call on the message. *)
Lemma send_reaches_transport (tr : list Event) :
  _smtp_config settings ≠ ∅ →
  first_rejection email_lib [] ops = None →
  made_call (run tr) tr call.
Proof.
  intros Hcfg Hacc. unfold made_call.
  rewrite send_configured by done. rewrite Hacc.
  destruct (transport call) as [[msg|msg]|]; simpl;
    eexists; (split; [reflexivity|]); simpl; auto.
Qed.

End DispatcherRuns.

(** * Properties of the templates *)

Section Strings.

Lemma string_app_cons (x : ascii) (a b : string) :
  String x a +:+ b = String x (a +:+ b).
Proof. reflexivity. Qed.

Lemma string_app_nil (b : string) : EmptyString +:+ b = b.
Proof. reflexivity. Qed.

Lemma string_app_assoc (a b c : string) : (a +:+ b) +:+ c = a +:+ b +:+ c.
Proof.
  induction a as [|x a IH]; [done|].
  by rewrite !string_app_cons, IH.
Qed.

Lemma nonblank_app_r (s t : string) :
  nonblank t = true → nonblank (s +:+ t) = true.
Proof.
  intros Ht. induction s as [|c s IH]; [done|].
  rewrite string_app_cons. simpl. rewrite IH. apply orb_true_r.
Qed.

Lemma nonblank_rstrip (t : string) :
  nonblank t = true → ∃ c r, rstrip t = String c r.
Proof.
  induction t as [|c t IH]; simpl; [done|]. intros Hnb.
  destruct (rstrip t) as [|c' r] eqn:Hr; [|eauto].
  destruct (isspace c); simpl in Hnb; [|eauto].
  destruct (IH Hnb) as (? & ? & [=]).
Qed.

(** Trailing whitespace is looked for in the last piece only, as soon as
    that piece has a character that stays. *)
Lemma rstrip_app (s t : string) :
  nonblank t = true → rstrip (s +:+ t) = s +:+ rstrip t.
Proof.
  intros Ht. destruct (nonblank_rstrip t Ht) as (c & r & Hr).
  induction s as [|x s IH]; [done|].
  rewrite !string_app_cons. simpl. rewrite IH, Hr.
  destruct s; reflexivity.
Qed.

(** Leading whitespace: the line feed that opens a template goes, the
    first visible character stops the scan. *)
Lemma lstrip_nl (c : ascii) (s rest : string) :
  isspace c = false → lstrip (nl +:+ String c s +:+ rest) = String c s +:+ rest.
Proof.
  intros Hc. unfold nl. rewrite !string_app_cons, string_app_nil.
  simpl. by rewrite Hc.
Qed.

Lemma contains_here (n t : string) : contains n (n +:+ t).
Proof. by exists EmptyString, t. Qed.

Lemma contains_app_r (n s t : string) : contains n t → contains n (s +:+ t).
Proof.
  intros (b & a & ->). exists (s +:+ b), a. by rewrite string_app_assoc.
Qed.

End Strings.

Ltac nonblank_tail :=
  first [ reflexivity | apply nonblank_app_r; nonblank_tail ].

Ltac find_piece :=
  first [ apply contains_here | apply contains_app_r; find_piece ].

(** Both templates after [strip()]: only the line feed at either end of
    the literal is removed, whatever the interpolated values are. *)
Lemma html_body_stripped (app name pw : string) :
  html_body app name pw =
    "<!DOCTYPE html>" +:+ nl
    +:+ "<html>" +:+ nl
    +:+ "<head>" +:+ nl
    +:+ "  <meta charset=" +:+ dquote +:+ "utf-8" +:+ dquote +:+ ">" +:+ nl
    +:+ "</head>" +:+ nl
    +:+ "<body>" +:+ nl
    +:+ "  <p>Hello " +:+ name_or_User name +:+ ",</p>" +:+ nl
    +:+ "  <p>You have requested to reset your password. Your new temporary password is:</p>" +:+ nl
    +:+ "  <p><strong>" +:+ pw +:+ "</strong></p>" +:+ nl
    +:+ "  <p>For security reasons, you will be required to change this password immediately after logging in.</p>" +:+ nl
    +:+ "  <p>This is an automated email from " +:+ app +:+ ".</p>" +:+ nl
    +:+ "</body>" +:+ nl
    +:+ "</html>".
Proof.
  unfold html_body, strip.
  rewrite lstrip_nl by reflexivity.
  repeat rewrite rstrip_app by nonblank_tail.
  reflexivity.
Qed.

Lemma text_body_stripped (app name pw : string) :
  text_body app name pw =
    "Password Reset - " +:+ app +:+ nl
    +:+ nl
    +:+ "Hello " +:+ name_or_User name +:+ "," +:+ nl
    +:+ nl
    +:+ "You have requested to reset your password for your account. Your new temporary password is:" +:+ nl
    +:+ nl
    +:+ pw +:+ nl
    +:+ nl
    +:+ "IMPORTANT: For security reasons, you will be required to change this password immediately after logging in." +:+ nl
    +:+ nl
    +:+ "This is an automated email. Please do not reply to this message.".
Proof.
  unfold text_body, strip.
  rewrite lstrip_nl by reflexivity.
  repeat rewrite rstrip_app by nonblank_tail.
  reflexivity.
Qed.

Lemma html_body_contains_secret (app name pw : string) :
  contains pw (html_body app name pw).
Proof. rewrite html_body_stripped. find_piece. Qed.

Lemma text_body_contains_secret (app name pw : string) :
  contains pw (text_body app name pw).
Proof. rewrite text_body_stripped. find_piece. Qed.

(** * The dispatch contract *)

(** C1. With no provider configured the dispatcher returns exactly the
    fixed failure result; the only thing it does before returning is to
    write a log record, so no message is created and the transport is not
    called. *)
Theorem unconfigured_reports_without_sending
    (s : Settings) (email_lib : EmailMessage → MsgOp → option PyExc)
    (transport : SmtpCall → option PyExc)
    (to_email new_password : string) (recipient_name : option string)
    (tr : list Event) :
  _smtp_config s = ∅ →
  ∃ added,
    send_password_reset_email s email_lib transport to_email new_password
      recipient_name tr
    = (Returned
         {[ "success" := VBool false;
            "error" :=
              VStr "Email service not configured. Please contact administrator." ]},
       tr ++ added)
    ∧ Forall (λ ev, mail_activity ev = false) added.
Proof.
  intros Hcfg. eexists. split.
  - by apply send_unconfigured.
  - by repeat constructor.
Qed.

Lemma unconfigured_reports_without_sending_witness :
  ∃ added,
    send_password_reset_email blank_settings line_break_policy delivering
      "ann@example.org" "s3cret" (Some "Ann") []
    = (Returned
         {[ "success" := VBool false;
            "error" :=
              VStr "Email service not configured. Please contact administrator." ]},
       [] ++ added)
    ∧ Forall (λ ev, mail_activity ev = false) added.
Proof.
  apply (unconfigured_reports_without_sending blank_settings
           line_break_policy delivering).
  reflexivity.
Defined.

(** C2. Whenever the dispatcher has called the transport and that call
    raises an [Exception], the dispatcher logs it and returns the failure
    result that carries the exception's string; it returns, it does not
    raise. (The transport is only ever called for a configured provider,
    after the message has been built.) *)
Theorem transport_failure_is_contained
    (s : Settings) (email_lib : EmailMessage → MsgOp → option PyExc)
    (transport : SmtpCall → option PyExc)
    (to_email new_password : string) (recipient_name : option string)
    (tr : list Event) (c : SmtpCall) (reason : string) :
  made_call (send_password_reset_email s email_lib transport to_email
               new_password recipient_name tr) tr c →
  transport c = Some (PyException reason) →
  send_password_reset_email s email_lib transport to_email new_password
    recipient_name tr
  = (Returned {[ "success" := VBool false; "error" := VStr reason ]},
     tr ++ [EvNewMessage; EvSmtpSend c;
            EvLogError ("Error sending password reset email: " +:+ reason)]).
Proof.
  intros Hcall Hfail.
  apply made_call_inv in Hcall as (Hcfg & Hacc & ->).
  rewrite send_configured by done. by rewrite Hacc, Hfail.
Qed.

Lemma transport_failure_is_contained_witness :
  send_password_reset_email gmail_settings line_break_policy
    (failing (PyException "535 Authentication failed"))
    "ann@example.org" "s3cret" None []
  = (Returned {[ "success" := VBool false;
                 "error" := VStr "535 Authentication failed" ]},
     [] ++ [EvNewMessage;
            EvSmtpSend (dispatched_call gmail_settings "ann@example.org"
                          "s3cret" None);
            EvLogError ("Error sending password reset email: "
                        +:+ "535 Authentication failed")]).
Proof.
  apply (transport_failure_is_contained gmail_settings line_break_policy
           (failing (PyException "535 Authentication failed"))).
  - eexists. split; [reflexivity|]. right. left. reflexivity.
  - reflexivity.
Defined.

(** C3, as stated, fails: when the transport raises an exception whose
    string is empty, the dispatcher returns a failure whose error string is
    empty, which is neither of the two shapes of the invariant. *)
Lemma empty_reason_breaks_invariant :
  ∃ r,
    (send_password_reset_email gmail_settings line_break_policy
       (failing (PyException EmptyString))
       "ann@example.org" "s3cret" None []).1 = Returned r
    ∧ ¬ result_invariant r.
Proof.
  exists (failure_result EmptyString). split; [reflexivity|].
  intros [[Hs _] | (_ & e & He & Hne)].
  - vm_compute in Hs. discriminate Hs.
  - vm_compute in He. injection He as <-. by apply Hne.
Qed.

(** C3, amended. Whatever the path, a returned result has success true
    and no error field, or success false and an error string; the error
    string is non-empty except when the transport raised an exception
    whose string is empty, and then it is that empty string. *)
Theorem result_is_success_or_failure
    (s : Settings) (email_lib : EmailMessage → MsgOp → option PyExc)
    (transport : SmtpCall → option PyExc)
    (to_email new_password : string) (recipient_name : option string)
    (tr : list Event) (r : gmap string PyVal) :
  (send_password_reset_email s email_lib transport to_email new_password
     recipient_name tr).1 = Returned r →
  (r !! "success" = Some (VBool true) ∧ r !! "error" = None)
  ∨ (r !! "success" = Some (VBool false)
     ∧ ∃ e, r !! "error" = Some (VStr e)
            ∧ (e ≠ EmptyString
               ∨ (e = EmptyString
                  ∧ _smtp_config s ≠ ∅
                  ∧ transport (dispatched_call s to_email new_password
                                 recipient_name)
                    = Some (PyException EmptyString)))).
Proof.
  intros Hrun. destruct (decide (_smtp_config s = ∅)) as [Hcfg|Hcfg].
  - rewrite send_unconfigured in Hrun by done. simpl in Hrun.
    injection Hrun as <-. right. split; [reflexivity|].
    exists not_configured_error. split; [reflexivity|]. left. discriminate.
  - rewrite send_configured in Hrun by done.
    destruct (first_rejection _ _ _) as [e|]; [discriminate Hrun|].
    destruct (transport _) as [[reason|reason]|] eqn:Hout;
      simpl in Hrun; [|discriminate Hrun|].
    + injection Hrun as <-. right. split; [reflexivity|].
      exists reason. split; [reflexivity|].
      destruct (decide (reason = EmptyString)) as [->|Hne]; [right|left]; done.
    + injection Hrun as <-. left. split; reflexivity.
Qed.

Lemma result_is_success_or_failure_witness :
  (success_result !! "success" = Some (VBool true)
   ∧ success_result !! "error" = None)
  ∨ (success_result !! "success" = Some (VBool false)
     ∧ ∃ e, success_result !! "error" = Some (VStr e)
            ∧ (e ≠ EmptyString
               ∨ (e = EmptyString
                  ∧ _smtp_config gmail_settings ≠ ∅
                  ∧ delivering (dispatched_call gmail_settings
                                  "ann@example.org" "s3cret" None)
                    = Some (PyException EmptyString)))).
Proof.
  apply (result_is_success_or_failure gmail_settings line_break_policy
           delivering "ann@example.org" "s3cret" None []).
  reflexivity.
Defined.

(** C7. On the configured path the transport is called as soon as the
    library has accepted the message, and every transport call the
    dispatcher makes carries a pair of TLS flags read off the config's
    [secure] entry (false when the entry is absent): [use_tls] is that
    boolean and [start_tls] its negation, so exactly one of the two modes
    is selected; for generic smtp the boolean is the configured
    [smtp_secure]. *)
Theorem tls_mode_follows_secure
    (s : Settings) (email_lib : EmailMessage → MsgOp → option PyExc)
    (transport : SmtpCall → option PyExc)
    (to_email new_password : string) (recipient_name : option string)
    (tr : list Event) :
  (_smtp_config s ≠ ∅ →
   first_rejection email_lib []
     (outbound_message s to_email new_password recipient_name) = None →
   made_call (send_password_reset_email s email_lib transport to_email
                new_password recipient_name tr) tr
     (dispatched_call s to_email new_password recipient_name))
  ∧ (∀ c,
       made_call (send_password_reset_email s email_lib transport to_email
                    new_password recipient_name tr) tr c →
       ∃ secure,
         dict_get (_smtp_config s) "secure" (VBool false) = VBool secure
         ∧ use_tls c = VBool secure
         ∧ start_tls c = negb secure
         ∧ (email_provider s = "smtp" → secure = smtp_secure s)
         ∧ (_smtp_config s !! "secure" = None → secure = false)).
Proof.
  split; [apply send_reaches_transport|].
  intros c Hcall. apply made_call_inv in Hcall as (Hcfg & _ & ->).
  destruct (resolver_secure_bool s) as (secure & Hsec).
  exists secure. split_and!.
  - exact Hsec.
  - unfold dispatched_call. cbv zeta. cbn [use_tls]. exact Hsec.
  - unfold dispatched_call. cbv zeta. cbn [start_tls]. by rewrite Hsec.
  - intros Hsmtp. unfold dict_get in Hsec.
    destruct (resolver_secure_entry s) as [? | [[_ Hk] | [Hne _]]];
      [done | | done].
    rewrite Hk in Hsec. simpl in Hsec. congruence.
  - intros Hnone. unfold dict_get in Hsec. rewrite Hnone in Hsec.
    simpl in Hsec. congruence.
Qed.

Lemma tls_mode_follows_secure_witness :
  made_call (send_password_reset_email smtps_settings line_break_policy
               delivering "ann@example.org" "s3cret" None []) []
    (dispatched_call smtps_settings "ann@example.org" "s3cret" None)
  ∧ ∃ secure,
      dict_get (_smtp_config smtps_settings) "secure" (VBool false)
      = VBool secure
      ∧ use_tls (dispatched_call smtps_settings "ann@example.org" "s3cret" None)
        = VBool secure
      ∧ start_tls (dispatched_call smtps_settings "ann@example.org" "s3cret"
                     None)
        = negb secure
      ∧ (email_provider smtps_settings = "smtp"
         → secure = smtp_secure smtps_settings)
      ∧ (_smtp_config smtps_settings !! "secure" = None → secure = false).
Proof.
  destruct (tls_mode_follows_secure smtps_settings line_break_policy
              delivering "ann@example.org" "s3cret" None []) as [Hex Hall].
  assert (Hcall : made_call
            (send_password_reset_email smtps_settings line_break_policy
               delivering "ann@example.org" "s3cret" None []) []
            (dispatched_call smtps_settings "ann@example.org" "s3cret" None)).
  { apply Hex; [|reflexivity]. intros Hempty.
    apply (f_equal (λ c : gmap string PyVal, c !! "host")) in Hempty.
    vm_compute in Hempty. discriminate Hempty. }
  split; [exact Hcall | exact (Hall _ Hcall)].
Defined.

(** The two modes on the generic smtp variant, evaluated. *)
Example smtp_secure_true_selects_tls_on_connect :
  use_tls (dispatched_call smtps_settings "ann@example.org" "s3cret" None)
    = VBool true
  ∧ start_tls (dispatched_call smtps_settings "ann@example.org" "s3cret" None)
    = false.
Proof. split; reflexivity. Qed.

Example gmail_selects_starttls :
  use_tls (dispatched_call gmail_settings "ann@example.org" "s3cret" None)
    = VBool false
  ∧ start_tls (dispatched_call gmail_settings "ann@example.org" "s3cret" None)
    = true.
Proof. split; reflexivity. Qed.

(** What the dispatcher has passed to the message by the time it calls
    the transport. *)
Lemma dispatched_bodies (s : Settings)
    (to_email new_password : string) (recipient_name : option string) :
  content_set
    (message (dispatched_call s to_email new_password recipient_name))
  = [text_body (app_name s) (default "User" recipient_name) new_password]
  ∧ alternatives_added
      (message (dispatched_call s to_email new_password recipient_name))
    = [(html_body (app_name s) (default "User" recipient_name) new_password,
        "html")].
Proof. split; reflexivity. Qed.

Lemma dispatched_from_header (s : Settings)
    (to_email new_password : string) (recipient_name : option string) :
  header_assigned "From"
    (message (dispatched_call s to_email new_password recipient_name))
  = [email_from_name s +:+ " <"
     +:+ py_or (email_from s) (py_or (gmail_user s) "noreply@sportsevent.com")
     +:+ ">"].
Proof. reflexivity. Qed.

(** C8. The plain-text body and the HTML body that the dispatcher renders
    both contain the secret exactly as it was passed in; and whenever the
    dispatcher calls the transport, these two bodies are what it has given
    to [set_content] and to [add_alternative] of the message. *)
Theorem bodies_embed_secret
    (s : Settings) (email_lib : EmailMessage → MsgOp → option PyExc)
    (transport : SmtpCall → option PyExc)
    (to_email new_password : string) (recipient_name : option string)
    (tr : list Event) :
  contains new_password
    (text_body (app_name s) (default "User" recipient_name) new_password)
  ∧ contains new_password
      (html_body (app_name s) (default "User" recipient_name) new_password)
  ∧ (∀ c,
       made_call (send_password_reset_email s email_lib transport to_email
                    new_password recipient_name tr) tr c →
       content_set (message c)
       = [text_body (app_name s) (default "User" recipient_name) new_password]
       ∧ alternatives_added (message c)
         = [(html_body (app_name s) (default "User" recipient_name)
               new_password, "html")]).
Proof.
  split_and!.
  - apply text_body_contains_secret.
  - apply html_body_contains_secret.
  - intros c Hcall. apply made_call_inv in Hcall as (_ & _ & ->).
    apply dispatched_bodies.
Qed.

Lemma bodies_embed_secret_witness :
  contains "<b>&s3cret</b>"
    (text_body (app_name sendgrid_settings) "Ann" "<b>&s3cret</b>")
  ∧ contains "<b>&s3cret</b>"
      (html_body (app_name sendgrid_settings) "Ann" "<b>&s3cret</b>")
  ∧ content_set
      (message (dispatched_call sendgrid_settings "ann@example.org"
                  "<b>&s3cret</b>" (Some "Ann")))
    = [text_body (app_name sendgrid_settings) "Ann" "<b>&s3cret</b>"].
Proof.
  destruct (bodies_embed_secret sendgrid_settings line_break_policy delivering
              "ann@example.org" "<b>&s3cret</b>" (Some "Ann") [])
    as (Htext & Hhtml & Hsent).
  split_and!; [exact Htext | exact Hhtml |].
  apply Hsent.
  eexists. split; [reflexivity|]. right. left. reflexivity.
Defined.

(** An omitted or empty recipient name renders as the name [User]. *)
Lemma greeting_name (recipient_name : option string) :
  recipient_name = None ∨ recipient_name = Some EmptyString →
  name_or_User (default "User" recipient_name) = "User".
Proof. by intros [-> | ->]. Qed.

Lemma text_body_greets (app pw : string) :
  contains "Hello User," (text_body app "User" pw).
Proof.
  rewrite text_body_stripped.
  change ("Hello " +:+ name_or_User "User" +:+ "," +:+ ?tl)
    with ("Hello User," +:+ tl).
  find_piece.
Qed.

Lemma html_body_greets (app pw : string) :
  contains "<p>Hello User,</p>" (html_body app "User" pw).
Proof.
  rewrite html_body_stripped.
  change ("  <p>Hello " +:+ name_or_User "User" +:+ ",</p>" +:+ ?tl)
    with ("  " +:+ "<p>Hello User,</p>" +:+ tl).
  find_piece.
Qed.

(** C9. With the recipient name omitted or empty, both bodies are the
    renderings for the name [User]: the plain text has the line
    [Hello User,] and the HTML the paragraph [<p>Hello User,</p>]; and
    whenever the dispatcher calls the transport, these renderings are what
    it has given to the message. *)
Theorem blank_name_greets_User
    (s : Settings) (email_lib : EmailMessage → MsgOp → option PyExc)
    (transport : SmtpCall → option PyExc)
    (to_email new_password : string) (recipient_name : option string)
    (tr : list Event) :
  recipient_name = None ∨ recipient_name = Some EmptyString →
  text_body (app_name s) (default "User" recipient_name) new_password
  = text_body (app_name s) "User" new_password
  ∧ html_body (app_name s) (default "User" recipient_name) new_password
    = html_body (app_name s) "User" new_password
  ∧ contains "Hello User," (text_body (app_name s) "User" new_password)
  ∧ contains "<p>Hello User,</p>" (html_body (app_name s) "User" new_password)
  ∧ (∀ c,
       made_call (send_password_reset_email s email_lib transport to_email
                    new_password recipient_name tr) tr c →
       content_set (message c) = [text_body (app_name s) "User" new_password]
       ∧ alternatives_added (message c)
         = [(html_body (app_name s) "User" new_password, "html")]).
Proof.
  intros Hname.
  assert (Htext :
    text_body (app_name s) (default "User" recipient_name) new_password
    = text_body (app_name s) "User" new_password)
    by (by rewrite !text_body_stripped, (greeting_name _ Hname)).
  assert (Hhtml :
    html_body (app_name s) (default "User" recipient_name) new_password
    = html_body (app_name s) "User" new_password)
    by (by rewrite !html_body_stripped, (greeting_name _ Hname)).
  split_and!.
  - exact Htext.
  - exact Hhtml.
  - apply text_body_greets.
  - apply html_body_greets.
  - intros c Hcall. apply made_call_inv in Hcall as (_ & _ & ->).
    rewrite <- Htext, <- Hhtml. apply dispatched_bodies.
Qed.

Lemma blank_name_greets_User_witness :
  text_body (app_name gmail_settings) (default "User" (Some EmptyString))
    "s3cret"
  = text_body (app_name gmail_settings) "User" "s3cret"
  ∧ html_body (app_name gmail_settings) (default "User" (Some EmptyString))
      "s3cret"
    = html_body (app_name gmail_settings) "User" "s3cret"
  ∧ contains "Hello User," (text_body (app_name gmail_settings) "User" "s3cret")
  ∧ contains "<p>Hello User,</p>"
      (html_body (app_name gmail_settings) "User" "s3cret")
  ∧ content_set
      (message (dispatched_call gmail_settings "ann@example.org" "s3cret"
                  (Some EmptyString)))
    = [text_body (app_name gmail_settings) "User" "s3cret"].
Proof.
  destruct (blank_name_greets_User gmail_settings line_break_policy delivering
              "ann@example.org" "s3cret" (Some EmptyString) [])
    as (Htext & Hhtml & Hgt & Hgh & Hsent); [by right|].
  split_and!; [exact Htext | exact Hhtml | exact Hgt | exact Hgh |].
  apply Hsent.
  eexists. split; [reflexivity|]. right. left. reflexivity.
Defined.

(** C10. Whatever the provider, when the dispatcher calls the transport
    and there is no usable [email_from], the value it has assigned to the
    From header is the display name followed by an address in angle
    brackets, and the address is [gmail_user] when that is populated and
    the placeholder otherwise. *)
Theorem from_address_fallback
    (s : Settings) (email_lib : EmailMessage → MsgOp → option PyExc)
    (transport : SmtpCall → option PyExc)
    (to_email new_password : string) (recipient_name : option string)
    (tr : list Event) (c : SmtpCall) :
  made_call (send_password_reset_email s email_lib transport to_email
               new_password recipient_name tr) tr c →
  ¬ populated (email_from s) →
  ∃ from_email,
    header_assigned "From" (message c)
    = [email_from_name s +:+ " <" +:+ from_email +:+ ">"]
    ∧ (∀ g, gmail_user s = Some g → g ≠ EmptyString → from_email = g)
    ∧ (¬ populated (gmail_user s) → from_email = "noreply@sportsevent.com").
Proof.
  intros Hcall Hfrom. apply made_call_inv in Hcall as (_ & _ & ->).
  exists (py_or (gmail_user s) "noreply@sportsevent.com").
  split_and!.
  - rewrite dispatched_from_header.
    by rewrite (py_or_fallback (email_from s)).
  - intros g Hg Hne. by apply py_or_populated.
  - apply py_or_fallback.
Qed.

Lemma from_address_fallback_witness :
  ∃ from_email,
    header_assigned "From"
      (message (dispatched_call resend_settings "ann@example.org" "s3cret"
                  None))
    = [email_from_name resend_settings +:+ " <" +:+ from_email +:+ ">"]
    ∧ (∀ g, gmail_user resend_settings = Some g → g ≠ EmptyString
            → from_email = g)
    ∧ (¬ populated (gmail_user resend_settings)
       → from_email = "noreply@sportsevent.com").
Proof.
  apply (from_address_fallback resend_settings line_break_policy delivering
           "ann@example.org" "s3cret" None []).
  - eexists. split; [reflexivity|]. right. left. reflexivity.
  - intros (v & Hv & Hne). injection Hv as <-. by apply Hne.
Defined.

(** * The model on concrete inputs *)

Example sendgrid_user_defaults_to_apikey :
  _smtp_config sendgrid_settings !! "user" = Some (VStr "apikey").
Proof. reflexivity. Qed.

Example provider_match_is_case_sensitive :
  _smtp_config (with_provider "Gmail" gmail_settings) = ∅.
Proof. reflexivity. Qed.

Example gmail_delivery_succeeds :
  send_password_reset_email gmail_settings line_break_policy delivering
    "ann@example.org" "s3cret" None []
  = (Returned success_result,
     [EvNewMessage;
      EvSmtpSend (dispatched_call gmail_settings "ann@example.org" "s3cret" None)]).
Proof. reflexivity. Qed.

Example sendgrid_sender_is_email_from :
  header_assigned "From"
    (message (dispatched_call sendgrid_settings "ann@example.org" "s3cret" None))
  = ["Sports Desk <desk@example.org>"].
Proof. reflexivity. Qed.

(** An exception outside [Exception] is not caught by the handler. *)
Example cancellation_propagates :
  (send_password_reset_email gmail_settings line_break_policy
     (failing (PyBaseException "cancelled"))
     "ann@example.org" "s3cret" None []).1
  = Raised (PyBaseException "cancelled").
Proof. reflexivity. Qed.

(** A recipient that spans two lines is refused while the message is
    built: the transport is not reached. *)
Example two_line_recipient_is_refused :
  send_password_reset_email gmail_settings line_break_policy delivering
    ("ann@example.org" +:+ nl +:+ "Bcc: eve@example.org") "s3cret" None []
  = (Raised (PyException
       "Header values may not contain linefeed or carriage return characters"),
     [EvNewMessage]).
Proof. reflexivity. Qed.

Example splitlines_pairs_cr_lf :
  splitlines ("a" +:+ String "013" nl +:+ "b" +:+ nl) = ["a"; "b"].
Proof. reflexivity. Qed.

Example strip_removes_both_ends :
  strip (nl +:+ "  a b " +:+ nl) = "a b".
Proof. reflexivity. Qed.

(** * Further properties of the resolver *)

(** The dict each variant resolves to once its required settings are
    populated. *)
Lemma resolver_configured_dict (s : Settings) (v : Variant) :
  variant_of (email_provider s) = Some v →
  Forall (λ f, populated (f s)) (required_fields v) →
  _smtp_config s =
    match v with
    | Gmail =>
        {[ "host" := VStr "smtp.gmail.com"; "port" := VInt 587;
           "user" := pyval_of (gmail_user s);
           "password" := pyval_of (gmail_app_password s) ]}
    | Sendgrid =>
        {[ "host" := VStr "smtp.sendgrid.net"; "port" := VInt 587;
           "user" := VStr (py_or (sendgrid_user s) "apikey");
           "password" := pyval_of (sendgrid_api_key s) ]}
    | Resend =>
        {[ "host" := VStr "smtp.resend.com"; "port" := VInt 587;
           "user" := VStr "resend";
           "password" := pyval_of (resend_api_key s) ]}
    | Smtp =>
        {[ "host" := pyval_of (smtp_host s); "port" := VInt (smtp_port s);
           "user" := pyval_of (smtp_user s);
           "password" := pyval_of (smtp_password s);
           "secure" := VBool (smtp_secure s) ]}
    end.
Proof.
  intros Hv Hreq. unfold _smtp_config; cbv zeta. unfold variant_of in Hv.
  repeat case_decide; simplify_eq; simpl in Hreq;
    repeat match goal with
           | H : Forall _ (_ :: _) |- _ => apply Forall_cons in H as [? H]
           | H : populated ?o |- _ =>
               rewrite (py_not_false o H); clear H
           end; reflexivity.
Qed.

(** X1. The resolver returns a non-empty dict exactly when the provider is
    one of the four variants and every required setting of that variant is
    populated. *)
Theorem resolver_configured_iff (s : Settings) :
  _smtp_config s ≠ ∅
  ↔ ∃ v, variant_of (email_provider s) = Some v
         ∧ Forall (λ f, populated (f s)) (required_fields v).
Proof.
  split.
  - intros Hne.
    destruct (_smtp_config_resolved s) as
      [ | | u p Hp Hu Hune Hw Hwne | k Hp Hk Hkne | k Hp Hk Hkne
        | h u p Hp Hh Hhne Hu Hune Hw Hwne ]; [done | done | ..].
    + exists Gmail. split; [unfold variant_of; by rewrite Hp|].
      repeat constructor; eexists; eauto.
    + exists Sendgrid. split; [unfold variant_of; by rewrite Hp|].
      repeat constructor; eexists; eauto.
    + exists Resend. split; [unfold variant_of; by rewrite Hp|].
      repeat constructor; eexists; eauto.
    + exists Smtp. split; [unfold variant_of; by rewrite Hp|].
      repeat constructor; eexists; eauto.
  - intros (v & Hv & Hreq) Hempty.
    rewrite (resolver_configured_dict s v Hv Hreq) in Hempty.
    apply (f_equal (λ c : gmap string PyVal, c !! "port")) in Hempty.
    destruct v; vm_compute in Hempty; discriminate Hempty.
Qed.

(** X2. Once a variant is configured, the user and password of the
    resolved config come from that variant's own settings: the gmail user
    and app password; the sendgrid user, or [apikey] when that is absent or
    empty, with the sendgrid key; the literal [resend] with the resend key;
    the smtp user and password. *)
Theorem resolver_credentials_source (s : Settings) (v : Variant) :
  variant_of (email_provider s) = Some v →
  Forall (λ f, populated (f s)) (required_fields v) →
  match v with
  | Gmail =>
      _smtp_config s !! "user" = Some (pyval_of (gmail_user s))
      ∧ _smtp_config s !! "password" = Some (pyval_of (gmail_app_password s))
  | Sendgrid =>
      (populated (sendgrid_user s) →
         _smtp_config s !! "user" = Some (pyval_of (sendgrid_user s)))
      ∧ (¬ populated (sendgrid_user s) →
         _smtp_config s !! "user" = Some (VStr "apikey"))
      ∧ _smtp_config s !! "password" = Some (pyval_of (sendgrid_api_key s))
  | Resend =>
      _smtp_config s !! "user" = Some (VStr "resend")
      ∧ _smtp_config s !! "password" = Some (pyval_of (resend_api_key s))
  | Smtp =>
      _smtp_config s !! "user" = Some (pyval_of (smtp_user s))
      ∧ _smtp_config s !! "password" = Some (pyval_of (smtp_password s))
  end.
Proof.
  intros Hv Hreq. rewrite (resolver_configured_dict s v Hv Hreq).
  destruct v; split_and!; try reflexivity.
  - intros (u & Hu & Hne).
    rewrite (py_or_populated _ "apikey" u Hu Hne), Hu. reflexivity.
  - intros Hmiss. rewrite (py_or_fallback _ "apikey" Hmiss). reflexivity.
Qed.

Lemma resolver_credentials_source_witness :
  (populated (sendgrid_user sendgrid_settings) →
     _smtp_config sendgrid_settings !! "user"
     = Some (pyval_of (sendgrid_user sendgrid_settings)))
  ∧ (¬ populated (sendgrid_user sendgrid_settings) →
     _smtp_config sendgrid_settings !! "user" = Some (VStr "apikey"))
  ∧ _smtp_config sendgrid_settings !! "password"
    = Some (pyval_of (sendgrid_api_key sendgrid_settings)).
Proof.
  apply (resolver_credentials_source sendgrid_settings Sendgrid);
    [reflexivity|].
  repeat constructor; eexists; (split; [reflexivity|discriminate]).
Defined.

(** X3. A non-empty resolved config has exactly the keys host, port, user
    and password, and the key secure besides when the provider is the
    generic smtp one; it carries nothing else. *)
Theorem resolver_key_set (s : Settings) :
  _smtp_config s ≠ ∅ →
  dom (_smtp_config s)
  = if decide (email_provider s = "smtp")
    then ({[ "host"; "port"; "user"; "password"; "secure" ]} : gset string)
    else {[ "host"; "port"; "user"; "password" ]}.
Proof.
  intros Hne.
  destruct (_smtp_config_resolved s) as
    [ | | u p Hp | k Hp | k Hp | h u p Hp ]; [done | done | ..];
    rewrite Hp; case_decide; try done;
    rewrite !dom_insert_L, dom_singleton_L; set_solver.
Qed.

Lemma resolver_key_set_witness :
  dom (_smtp_config gmail_settings)
  = if decide (email_provider gmail_settings = "smtp")
    then ({[ "host"; "port"; "user"; "password"; "secure" ]} : gset string)
    else {[ "host"; "port"; "user"; "password" ]}.
Proof.
  apply (resolver_key_set gmail_settings).
  intros Hempty.
  apply (f_equal (λ c : gmap string PyVal, c !! "host")) in Hempty.
  vm_compute in Hempty. discriminate Hempty.
Defined.

Lemma pyval_of_inj (a b : option string) : pyval_of a = pyval_of b → a = b.
Proof. destruct a, b; simpl; congruence. Qed.

(** X4. The resolver reads the provider value and the settings of the
    selected variant only: two settings objects that agree on those resolve
    to the same config, whatever the settings of the other variants are.
    There is no fallback to another variant. *)
Theorem resolver_reads_selected_variant_only (s1 s2 : Settings) (v : Variant) :
  variant_of (email_provider s1) = Some v →
  email_provider s2 = email_provider s1 →
  resolver_inputs v s1 = resolver_inputs v s2 →
  _smtp_config s1 = _smtp_config s2.
Proof.
  intros Hv Hp Hin. unfold _smtp_config, py_not; cbv zeta. rewrite Hp.
  unfold variant_of in Hv.
  repeat case_decide; simplify_eq/=;
    repeat match goal with
           | H : pyval_of _ = pyval_of _ |- _ =>
               rewrite ?H; apply pyval_of_inj in H; rewrite ?H; clear H
           | H : smtp_port _ = smtp_port _ |- _ => rewrite H; clear H
           | H : smtp_secure _ = smtp_secure _ |- _ => rewrite H; clear H
           end; reflexivity.
Qed.

Lemma resolver_reads_selected_variant_only_witness :
  _smtp_config gmail_settings = _smtp_config crowded_gmail_settings.
Proof.
  apply (resolver_reads_selected_variant_only
           gmail_settings crowded_gmail_settings Gmail); reflexivity.
Defined.

(** * Further properties of the dispatcher *)

(** X5. Whenever the dispatcher calls the transport, the call carries the
    host, port, user and password of the resolved config unchanged. *)
Theorem dispatch_passes_resolved_credentials
    (s : Settings) (email_lib : EmailMessage → MsgOp → option PyExc)
    (transport : SmtpCall → option PyExc)
    (to_email new_password : string) (recipient_name : option string)
    (tr : list Event) (c : SmtpCall) :
  made_call (send_password_reset_email s email_lib transport to_email
               new_password recipient_name tr) tr c →
  _smtp_config s !! "host" = Some (hostname c)
  ∧ _smtp_config s !! "port" = Some (port c)
  ∧ _smtp_config s !! "user" = Some (username c)
  ∧ _smtp_config s !! "password" = Some (password c).
Proof.
  intros Hcall. apply made_call_inv in Hcall as (Hcfg & _ & ->).
  destruct (resolver_nonempty_keys s Hcfg)
    as (h & p & u & w & Hh & Hp & Hu & Hw).
  unfold dispatched_call, dict_get. cbv zeta.
  cbn [hostname port username password].
  rewrite Hh, Hp, Hu, Hw. by split_and!.
Qed.

Lemma dispatch_passes_resolved_credentials_witness :
  _smtp_config smtps_settings !! "host"
  = Some (hostname (dispatched_call smtps_settings "ann@example.org"
                      "s3cret" None))
  ∧ _smtp_config smtps_settings !! "port"
    = Some (port (dispatched_call smtps_settings "ann@example.org"
                    "s3cret" None))
  ∧ _smtp_config smtps_settings !! "user"
    = Some (username (dispatched_call smtps_settings "ann@example.org"
                        "s3cret" None))
  ∧ _smtp_config smtps_settings !! "password"
    = Some (password (dispatched_call smtps_settings "ann@example.org"
                        "s3cret" None)).
Proof.
  apply (dispatch_passes_resolved_credentials smtps_settings
           line_break_policy delivering "ann@example.org" "s3cret" None []).
  eexists. split; [reflexivity|]. right. left. reflexivity.
Defined.

(** X6. The [smtp_secure] setting matters for the generic smtp provider
    only: every transport call made for another provider is in STARTTLS
    mode, whatever [smtp_secure] is. *)
Theorem fixed_providers_always_starttls
    (s : Settings) (email_lib : EmailMessage → MsgOp → option PyExc)
    (transport : SmtpCall → option PyExc)
    (to_email new_password : string) (recipient_name : option string)
    (tr : list Event) (c : SmtpCall) :
  made_call (send_password_reset_email s email_lib transport to_email
               new_password recipient_name tr) tr c →
  email_provider s ≠ "smtp" →
  start_tls c = true ∧ use_tls c = VBool false.
Proof.
  intros Hcall Hprov. apply made_call_inv in Hcall as (Hcfg & _ & ->).
  destruct (resolver_secure_entry s) as [? | [[? _] | [_ Hnone]]];
    [done | done |].
  unfold dispatched_call, dict_get. cbv zeta. cbn [start_tls use_tls].
  rewrite Hnone. by split.
Qed.

Lemma fixed_providers_always_starttls_witness :
  start_tls (dispatched_call crowded_gmail_settings "ann@example.org"
               "s3cret" None) = true
  ∧ use_tls (dispatched_call crowded_gmail_settings "ann@example.org"
               "s3cret" None) = VBool false.
Proof.
  apply (fixed_providers_always_starttls crowded_gmail_settings
           line_break_policy delivering "ann@example.org" "s3cret" None []).
  - eexists. split; [reflexivity|]. right. left. reflexivity.
  - discriminate.
Defined.

(** X7. The dispatcher reports success exactly when a provider is
    configured, the library accepts every call that builds the message,
    and the transport call completes without raising. *)
Theorem success_iff_delivered
    (s : Settings) (email_lib : EmailMessage → MsgOp → option PyExc)
    (transport : SmtpCall → option PyExc)
    (to_email new_password : string) (recipient_name : option string)
    (tr : list Event) :
  (∃ r, (send_password_reset_email s email_lib transport to_email
           new_password recipient_name tr).1 = Returned r
        ∧ r !! "success" = Some (VBool true))
  ↔ (_smtp_config s ≠ ∅
     ∧ first_rejection email_lib []
         (outbound_message s to_email new_password recipient_name) = None
     ∧ transport (dispatched_call s to_email new_password recipient_name)
       = None).
Proof.
  split.
  - intros (r & Hrun & Hok).
    destruct (decide (_smtp_config s = ∅)) as [Hcfg|Hcfg].
    + rewrite send_unconfigured in Hrun by done. simpl in Hrun.
      injection Hrun as <-. vm_compute in Hok. discriminate Hok.
    + split; [done|]. rewrite send_configured in Hrun by done.
      destruct (first_rejection _ _ _) as [e|]; [discriminate Hrun|].
      split; [done|].
      destruct (transport _) as [[reason|reason]|]; simpl in Hrun;
        [|discriminate Hrun|reflexivity].
      injection Hrun as <-.
      change (Some (VBool false) = Some (VBool true)) in Hok.
      discriminate Hok.
  - intros (Hcfg & Hacc & Hout). exists success_result.
    rewrite send_configured by done. rewrite Hacc, Hout. by split.
Qed.

(** X8. One call of the dispatcher creates one message when a provider is
    configured and none otherwise, and calls the transport at most once:
    once when a provider is configured and the library accepts the
    message, never otherwise. There is no second attempt on any path. *)
Theorem one_message_one_transport_call
    (s : Settings) (email_lib : EmailMessage → MsgOp → option PyExc)
    (transport : SmtpCall → option PyExc)
    (to_email new_password : string) (recipient_name : option string)
    (tr : list Event) :
  ∃ added,
    (send_password_reset_email s email_lib transport to_email new_password
       recipient_name tr).2 = tr ++ added
    ∧ count_events is_new_message added
      = (if decide (_smtp_config s = ∅) then 0 else 1)%nat
    ∧ count_events is_send added
      = (if decide (_smtp_config s = ∅) then 0
         else match first_rejection email_lib []
                      (outbound_message s to_email new_password
                         recipient_name) with
              | Some _ => 0
              | None => 1
              end)%nat.
Proof.
  destruct (decide (_smtp_config s = ∅)) as [Hcfg|Hcfg].
  - rewrite send_unconfigured by done. eexists. by split_and!.
  - rewrite send_configured by done.
    destruct (first_rejection _ _ _) as [e|]; [eexists; by split_and!|].
    destruct (transport _) as [[reason|reason]|]; eexists; by split_and!.
Qed.

(** X9. The dispatcher writes exactly one error record when it returns a
    failure, and none when it returns success or lets an exception
    through. *)
Theorem one_log_record_per_failure
    (s : Settings) (email_lib : EmailMessage → MsgOp → option PyExc)
    (transport : SmtpCall → option PyExc)
    (to_email new_password : string) (recipient_name : option string)
    (tr : list Event) :
  ∃ added,
    (send_password_reset_email s email_lib transport to_email new_password
       recipient_name tr).2 = tr ++ added
    ∧ count_events is_log added
      = match (send_password_reset_email s email_lib transport to_email
                 new_password recipient_name tr).1 with
        | Returned r =>
            if decide (r !! "success" = Some (VBool true)) then 0 else 1
        | Raised _ => 0
        end%nat.
Proof.
  destruct (decide (_smtp_config s = ∅)) as [Hcfg|Hcfg].
  - rewrite send_unconfigured by done. eexists. by split.
  - rewrite send_configured by done.
    destruct (first_rejection _ _ _) as [e|]; [eexists; by split|].
    destruct (transport _) as [[reason|reason]|]; eexists; by split.
Qed.

(** X10. The handler catches [Exception] only: when a transport call the
    dispatcher has made is interrupted by an exception outside that class,
    the dispatcher returns no result and writes no log record; the
    exception reaches the caller. *)
Theorem base_exception_reaches_caller
    (s : Settings) (email_lib : EmailMessage → MsgOp → option PyExc)
    (transport : SmtpCall → option PyExc)
    (to_email new_password : string) (recipient_name : option string)
    (tr : list Event) (c : SmtpCall) (reason : string) :
  made_call (send_password_reset_email s email_lib transport to_email
               new_password recipient_name tr) tr c →
  transport c = Some (PyBaseException reason) →
  send_password_reset_email s email_lib transport to_email new_password
    recipient_name tr
  = (Raised (PyBaseException reason), tr ++ [EvNewMessage; EvSmtpSend c]).
Proof.
  intros Hcall Hout. apply made_call_inv in Hcall as (Hcfg & Hacc & ->).
  rewrite send_configured by done. by rewrite Hacc, Hout.
Qed.

Lemma base_exception_reaches_caller_witness :
  send_password_reset_email gmail_settings line_break_policy
    (failing (PyBaseException "cancelled"))
    "ann@example.org" "s3cret" None []
  = (Raised (PyBaseException "cancelled"),
     [] ++ [EvNewMessage;
            EvSmtpSend (dispatched_call gmail_settings "ann@example.org"
                          "s3cret" None)]).
Proof.
  apply (base_exception_reaches_caller gmail_settings line_break_policy
           (failing (PyBaseException "cancelled"))).
  - eexists. split; [reflexivity|]. right. left. reflexivity.
  - reflexivity.
Defined.

(** X11. The message is built before the [try]: when a provider is
    configured and the library raises on one of the calls that fill the
    message, that exception reaches the caller as it is, after the message
    has been created, with no transport call and no log record. *)
Theorem library_rejection_reaches_caller
    (s : Settings) (email_lib : EmailMessage → MsgOp → option PyExc)
    (transport : SmtpCall → option PyExc)
    (to_email new_password : string) (recipient_name : option string)
    (tr : list Event) (e : PyExc) :
  _smtp_config s ≠ ∅ →
  first_rejection email_lib []
    (outbound_message s to_email new_password recipient_name) = Some e →
  send_password_reset_email s email_lib transport to_email new_password
    recipient_name tr
  = (Raised e, tr ++ [EvNewMessage]).
Proof.
  intros Hcfg Hrej. rewrite send_configured by done. by rewrite Hrej.
Qed.

Lemma library_rejection_reaches_caller_witness :
  send_password_reset_email gmail_settings line_break_policy delivering
    ("ann@example.org" +:+ nl +:+ "Bcc: eve@example.org") "s3cret" None []
  = (Raised (PyException
       "Header values may not contain linefeed or carriage return characters"),
     [] ++ [EvNewMessage]).
Proof.
  apply (library_rejection_reaches_caller gmail_settings line_break_policy
           delivering).
  - intros Hempty.
    apply (f_equal (λ c : gmap string PyVal, c !! "host")) in Hempty.
    vm_compute in Hempty. discriminate Hempty.
  - reflexivity.
Defined.

(** X12. Whenever the dispatcher calls the transport and [email_from] is
    populated, the value it has assigned to the From header uses that
    address, whatever [gmail_user] is. *)
Theorem from_address_prefers_email_from
    (s : Settings) (email_lib : EmailMessage → MsgOp → option PyExc)
    (transport : SmtpCall → option PyExc)
    (to_email new_password : string) (recipient_name : option string)
    (tr : list Event) (c : SmtpCall) (addr : string) :
  made_call (send_password_reset_email s email_lib transport to_email
               new_password recipient_name tr) tr c →
  email_from s = Some addr →
  addr ≠ EmptyString →
  header_assigned "From" (message c)
  = [email_from_name s +:+ " <" +:+ addr +:+ ">"].
Proof.
  intros Hcall Hfrom Hne. apply made_call_inv in Hcall as (_ & _ & ->).
  rewrite dispatched_from_header.
  by rewrite (py_or_populated (email_from s) _ addr).
Qed.

Lemma from_address_prefers_email_from_witness :
  header_assigned "From"
    (message (dispatched_call crowded_gmail_settings "ann@example.org"
                "s3cret" None))
  = [email_from_name crowded_gmail_settings +:+ " <"
     +:+ "desk@example.org" +:+ ">"].
Proof.
  apply (from_address_prefers_email_from crowded_gmail_settings
           line_break_policy delivering "ann@example.org" "s3cret" None []).
  - eexists. split; [reflexivity|]. right. left. reflexivity.
  - reflexivity.
  - discriminate.
Defined.

(** * Further properties of the templates *)

Section StringCancellation.

Lemma string_length_app (a b : string) :
  String.length (a +:+ b) = (String.length a + String.length b)%nat.
Proof.
  induction a as [|x a IH]; [done|].
  rewrite string_app_cons. simpl. by rewrite IH.
Qed.

Lemma string_app_inv_r (a b c : string) : a +:+ c = b +:+ c → a = b.
Proof.
  revert b. induction a as [|x a IH]; intros [|y b] Heq.
  - reflexivity.
  - apply (f_equal String.length) in Heq.
    rewrite string_app_nil, string_app_cons in Heq. simpl in Heq.
    rewrite string_length_app in Heq. lia.
  - apply (f_equal String.length) in Heq.
    rewrite string_app_nil, string_app_cons in Heq. simpl in Heq.
    rewrite string_length_app in Heq. lia.
  - rewrite !string_app_cons in Heq. injection Heq as -> Heq.
    f_equal. by apply IH.
Qed.

Lemma starts_with_here (p t : string) : starts_with p (p +:+ t).
Proof. by exists t. Qed.

Lemma ends_with_here (t : string) : ends_with t t.
Proof. by exists EmptyString. Qed.

Lemma ends_with_app_r (suffix s t : string) :
  ends_with suffix t → ends_with suffix (s +:+ t).
Proof.
  intros (hd & ->). exists (s +:+ hd). by rewrite string_app_assoc.
Qed.

End StringCancellation.

Ltac find_end :=
  first [ apply ends_with_here | apply ends_with_app_r; find_end ].

Lemma text_body_greets_name (app n pw : string) :
  n ≠ EmptyString →
  contains ("Hello " +:+ n +:+ ",") (text_body app n pw).
Proof.
  intros Hn. rewrite text_body_stripped.
  unfold name_or_User. rewrite (py_or_populated (Some n) "User" n) by done.
  rewrite <- (string_app_assoc n "," _).
  rewrite <- (string_app_assoc "Hello " (n +:+ ",") _).
  find_piece.
Qed.

Lemma html_body_greets_name (app n pw : string) :
  n ≠ EmptyString →
  contains ("<p>Hello " +:+ n +:+ ",</p>") (html_body app n pw).
Proof.
  intros Hn. rewrite html_body_stripped.
  unfold name_or_User. rewrite (py_or_populated (Some n) "User" n) by done.
  change ("  <p>Hello " +:+ n +:+ ",</p>" +:+ ?tl)
    with ("  " +:+ "<p>Hello " +:+ n +:+ ",</p>" +:+ tl).
  rewrite <- (string_app_assoc n ",</p>" _).
  rewrite <- (string_app_assoc "<p>Hello " (n +:+ ",</p>") _).
  find_piece.
Qed.

(** X13. With a non-empty recipient name, both bodies greet the recipient
    by that name, taken as it is: the plain text has [Hello <name>,] and
    the HTML has [<p>Hello <name>,</p>] with the name unescaped; and
    whenever the dispatcher calls the transport, these bodies are what it
    has given to the message. *)
Theorem given_name_is_greeted_verbatim
    (s : Settings) (email_lib : EmailMessage → MsgOp → option PyExc)
    (transport : SmtpCall → option PyExc)
    (to_email new_password : string) (n : string)
    (tr : list Event) :
  n ≠ EmptyString →
  contains ("Hello " +:+ n +:+ ",") (text_body (app_name s) n new_password)
  ∧ contains ("<p>Hello " +:+ n +:+ ",</p>")
      (html_body (app_name s) n new_password)
  ∧ (∀ c,
       made_call (send_password_reset_email s email_lib transport to_email
                    new_password (Some n) tr) tr c →
       content_set (message c) = [text_body (app_name s) n new_password]
       ∧ alternatives_added (message c)
         = [(html_body (app_name s) n new_password, "html")]).
Proof.
  intros Hn. split_and!.
  - by apply text_body_greets_name.
  - by apply html_body_greets_name.
  - intros c Hcall. apply made_call_inv in Hcall as (_ & _ & ->).
    apply dispatched_bodies.
Qed.

Lemma given_name_is_greeted_verbatim_witness :
  contains ("Hello " +:+ "Ann <Lee>" +:+ ",")
    (text_body (app_name gmail_settings) "Ann <Lee>" "s3cret")
  ∧ contains ("<p>Hello " +:+ "Ann <Lee>" +:+ ",</p>")
      (html_body (app_name gmail_settings) "Ann <Lee>" "s3cret")
  ∧ content_set
      (message (dispatched_call gmail_settings "ann@example.org" "s3cret"
                  (Some "Ann <Lee>")))
    = [text_body (app_name gmail_settings) "Ann <Lee>" "s3cret"].
Proof.
  destruct (given_name_is_greeted_verbatim gmail_settings line_break_policy
              delivering "ann@example.org" "s3cret" "Ann <Lee>" [])
    as (Htext & Hhtml & Hsent); [discriminate|].
  split_and!; [exact Htext | exact Hhtml |].
  apply Hsent.
  eexists. split; [reflexivity|]. right. left. reflexivity.
Defined.

(** X14. [strip()] never reaches the interpolated values: whatever the
    application name, recipient name and secret are (blank ones included),
    the plain text opens with the title line that carries the application
    name and closes with the no-reply sentence, and the HTML opens with the
    doctype, closes with the closing tag and carries the application name
    in its footer sentence. *)
Theorem bodies_keep_their_frame (app name pw : string) :
  starts_with ("Password Reset - " +:+ app +:+ nl) (text_body app name pw)
  ∧ ends_with "This is an automated email. Please do not reply to this message."
      (text_body app name pw)
  ∧ starts_with ("<!DOCTYPE html>" +:+ nl) (html_body app name pw)
  ∧ ends_with ("</body>" +:+ nl +:+ "</html>") (html_body app name pw)
  ∧ contains ("This is an automated email from " +:+ app +:+ ".")
      (html_body app name pw).
Proof.
  rewrite text_body_stripped, html_body_stripped. split_and!.
  - rewrite <- (string_app_assoc app nl _).
    rewrite <- (string_app_assoc "Password Reset - " (app +:+ nl) _).
    apply starts_with_here.
  - find_end.
  - rewrite <- (string_app_assoc "<!DOCTYPE html>" nl _).
    apply starts_with_here.
  - find_end.
  - change ("  <p>This is an automated email from " +:+ app +:+ ".</p>" +:+ ?tl)
      with ("  <p>" +:+ "This is an automated email from " +:+ app +:+ "."
            +:+ "</p>" +:+ tl).
    rewrite <- (string_app_assoc app "." _).
    rewrite <- (string_app_assoc "This is an automated email from "
                  (app +:+ ".") _).
    find_piece.
Qed.

(** X15. The rendered bodies determine the secret: with the same
    application name and recipient name, two different secrets never give
    the same plain text, nor the same HTML. *)
Theorem bodies_distinguish_secrets (app name pw1 pw2 : string) :
  pw1 ≠ pw2 →
  text_body app name pw1 ≠ text_body app name pw2
  ∧ html_body app name pw1 ≠ html_body app name pw2.
Proof.
  intros Hne. split; intros Heq; apply Hne.
  - rewrite !text_body_stripped in Heq.
    repeat apply (inj (String.app _)) in Heq.
    by apply string_app_inv_r in Heq.
  - rewrite !html_body_stripped in Heq.
    repeat apply (inj (String.app _)) in Heq.
    by apply string_app_inv_r in Heq.
Qed.

Lemma bodies_distinguish_secrets_witness :
  text_body "Sports Portal" "Ann" "s3cret"
    ≠ text_body "Sports Portal" "Ann" "s3cret "
  ∧ html_body "Sports Portal" "Ann" "s3cret"
    ≠ html_body "Sports Portal" "Ann" "s3cret ".
Proof.
  apply (bodies_distinguish_secrets "Sports Portal" "Ann" "s3cret" "s3cret ").
  discriminate.
Defined.
